(** * TaskBot: the task repository, the completion parser and the service

    A shallow embedding of [src/bot.py].

    - The [tasks] table of the SQLAlchemy session is a list of rows in rowid
      order.  The engine is SQLite ([sqlite+aiosqlite]); the column
      [id INTEGER PRIMARY KEY] is an alias of the rowid, so an insert gets
      one more than the largest id in the table (1 in an empty table).
    - Python [int] is [Z]; a [datetime] is a clock reading in [Z], passed to
      [create] as [now] (the column default [datetime.utcnow]).
    - A Python [str] is a [string] whose characters are the code points
      below 256.
    - Coroutines are run to completion: every method is a function from the
      session to the session after the call and either the returned value or
      the exception raised. *)

From Stdlib Require Import ZArith List String Ascii Bool Lia.
From Stdlib Require Import Decimal DecimalString DecimalZ Sorted.
Import ListNotations.

Local Open Scope string_scope.
Local Open Scope Z_scope.

(** ** Exceptions and the session monad *)

Inductive exn : Type :=
| NameError              (* an unbound name is evaluated *)
| KeyError               (* d[k] on a dict without k *)
| IndexError             (* l[i] out of range *)
| ValueError             (* int(s) on a string that is no integer literal *)
| MultipleResultsFound.  (* scalar_one_or_none() on more than one row *)

Inductive result (A : Type) : Type :=
| Ok (a : A)
| Raise (e : exn).
Arguments Ok {A} a.
Arguments Raise {A} e.

(** ** Database models *)

Module Task.
Record t : Type := mk
  { id : Z; user_id : Z; description : string; created_at : Z }.
End Task.

Module TaskCreate.
Record t : Type := mk { description : string }.
End TaskCreate.

Module TaskUpdate.
Record t : Type := mk { description : option string }.
End TaskUpdate.

Module TaskResponse.
Record t : Type := mk
  { id : Z; description : string; created_at : Z }.
End TaskResponse.

(** The session: the rows of the [tasks] table. *)
Definition Session : Type := list Task.t.

Definition M (A : Type) : Type := Session -> Session * result A.

Definition ret {A} (a : A) : M A := fun s => (s, Ok a).
Definition raise {A} (e : exn) : M A := fun s => (s, Raise e).
Definition bind {A B} (m : M A) (k : A -> M B) : M B :=
  fun s => match m s with
           | (s', Ok a) => k a s'
           | (s', Raise e) => (s', Raise e)
           end.
Definition lift {A} (r : result A) : M A := fun s => (s, r).

Declare Scope session_scope.
Delimit Scope session_scope with session.
Notation "x <- m ;; k" := (bind m (fun x => k))
  (at level 100, m at next level, right associativity) : session_scope.
Notation "m ;;; k" := (bind m (fun _ => k))
  (at level 100, right associativity) : session_scope.
Local Open Scope session_scope.

(** ** The store primitives used by the repository *)

(** The id SQLite gives the next inserted row. *)
Definition next_id (s : Session) : Z :=
  match map Task.id s with
  | [] => 1
  | x :: xs => 1 + fold_left Z.max xs x
  end.

(** [Task(user_id=..., description=...)], [session.add], [commit],
    [refresh]: the row is inserted with the store-assigned id and the
    column default for [created_at]; the refreshed object is the row. *)
Definition add_commit_refresh (now user_id : Z) (description : string)
  : M Task.t :=
  fun s =>
    let db_task := Task.mk (next_id s) user_id description now in
    ((s ++ [db_task])%list, Ok db_task).

(** [select(Task).where(Task.id == task_id, Task.user_id == user_id)] *)
Definition select_by_id_and_user (task_id user_id : Z) : M (list Task.t) :=
  fun s =>
    (s, Ok (filter (fun t => (Task.id t =? task_id)
                             && (Task.user_id t =? user_id))%bool s)).

(** [select(Task).where(Task.user_id == user_id)] *)
Definition select_by_user (user_id : Z) : M (list Task.t) :=
  fun s => (s, Ok (filter (fun t => Task.user_id t =? user_id) s)).

Definition scalar_one_or_none (rows : list Task.t) : result (option Task.t) :=
  match rows with
  | [] => Ok None
  | [t] => Ok (Some t)
  | _ :: _ :: _ => Raise MultipleResultsFound
  end.

(** Attribute assignment on a loaded row followed by [commit] and
    [refresh]: an UPDATE of the row with that primary key. *)
Definition set_description (db_task : Task.t) (d : string) : Task.t :=
  Task.mk (Task.id db_task) (Task.user_id db_task) d (Task.created_at db_task).

Definition commit_refresh (db_task : Task.t) : M Task.t :=
  fun s =>
    (map (fun t => if Task.id t =? Task.id db_task then db_task else t) s,
     Ok db_task).

(** [session.delete(task)] and [commit]: a DELETE by primary key. *)
Definition delete_commit (task : Task.t) : M unit :=
  fun s => (filter (fun t => negb (Task.id t =? Task.id task)) s, Ok tt).

Definition response_of (t : Task.t) : TaskResponse.t :=
  TaskResponse.mk (Task.id t) (Task.description t) (Task.created_at t).

(** Truth value of a Python string, and of an optional one. *)
Definition truthy (d : option string) : option string :=
  match d with
  | Some (String c r) => Some (String c r)
  | _ => None
  end.

(** ** TaskRepository *)

Module TaskRepository.

(** Lines 45-50.  The row is added, committed and refreshed; the return
    expression of line 50 is [TaskResponse(..., created_at=db_task(created_at)]:
    the row object is applied to the name [created_at], which is bound
    nowhere, and the call's closing parenthesis is missing.  Read with the
    parenthesis closed, evaluating the argument raises [NameError], after the
    commit of line 48. *)
Definition create (now user_id : Z) (task : TaskCreate.t) : M TaskResponse.t :=
  db_task <- add_commit_refresh now user_id (TaskCreate.description task) ;;
  raise NameError.

Definition read (user_id task_id : Z) : M (option TaskResponse.t) :=
  rows <- select_by_id_and_user task_id user_id ;;
  task <- lift (scalar_one_or_none rows) ;;
  match task with
  | Some t => ret (Some (response_of t))
  | None => ret None
  end.

Definition update (user_id task_id : Z) (task : TaskUpdate.t)
  : M (option TaskResponse.t) :=
  rows <- select_by_id_and_user task_id user_id ;;
  db_task <- lift (scalar_one_or_none rows) ;;
  match db_task with
  | Some db_task =>
      let db_task :=
        match truthy (TaskUpdate.description task) with
        | Some d => set_description db_task d
        | None => db_task
        end in
      db_task <- commit_refresh db_task ;;
      ret (Some (response_of db_task))
  | None => ret None
  end.

Definition delete (user_id task_id : Z) : M bool :=
  rows <- select_by_id_and_user task_id user_id ;;
  task <- lift (scalar_one_or_none rows) ;;
  match task with
  | Some t => delete_commit t ;;; ret true
  | None => ret false
  end.

Definition list (user_id : Z) : M (Datatypes.list TaskResponse.t) :=
  tasks <- select_by_user user_id ;;
  ret (map response_of tasks).

End TaskRepository.

(** ** Python string methods used by the analyzer *)

Module Str.

(** [str.isspace] on the code points below 256. *)
Definition isspace (c : ascii) : bool :=
  let n := nat_of_ascii c in
  ((9 <=? n) && (n <=? 13) || (28 <=? n) && (n <=? 32)
   || (n =? 133) || (n =? 160))%nat.

Fixpoint occurs (c : ascii) (s : string) : bool :=
  match s with
  | EmptyString => false
  | String d r => Ascii.eqb c d || occurs c r
  end.

Fixpoint lstrip_by (p : ascii -> bool) (s : string) : string :=
  match s with
  | EmptyString => EmptyString
  | String c r => if p c then lstrip_by p r else s
  end.

Fixpoint rstrip_by (p : ascii -> bool) (s : string) : string :=
  match s with
  | EmptyString => EmptyString
  | String c r =>
      match rstrip_by p r with
      | EmptyString => if p c then EmptyString else String c EmptyString
      | r' => String c r'
      end
  end.

(** [s.strip()] *)
Definition strip (s : string) : string :=
  rstrip_by isspace (lstrip_by isspace s).

(** [s.strip(chars)] *)
Definition in_chars (chars : string) (c : ascii) : bool := occurs c chars.

Definition strip_chars (chars s : string) : string :=
  rstrip_by (in_chars chars) (lstrip_by (in_chars chars) s).

(** [sub in s] *)
Fixpoint contains (sub s : string) : bool :=
  prefix sub s ||
  match s with
  | EmptyString => false
  | String _ r => contains sub r
  end.

Definition cons_head (c : ascii) (l : list string) : list string :=
  match l with
  | [] => [String c EmptyString]
  | p :: ps => String c p :: ps
  end.

(** [s.split(sep)] for a non-empty [sep]: the pieces between the
    occurrences of [sep] found from left to right, without overlap.  [skip]
    counts the characters of a found occurrence still to be passed. *)
Fixpoint split_from (sep : string) (skip : nat) (s : string) : list string :=
  match s with
  | EmptyString => [EmptyString]
  | String c r =>
      match skip with
      | S k => split_from sep k r
      | O =>
          if prefix sep s
          then EmptyString :: split_from sep (Nat.pred (String.length sep)) r
          else cons_head c (split_from sep O r)
      end
  end.

Definition split (sep s : string) : list string := split_from sep O s.

(** [l[i]] for [i >= 0] *)
Definition item {A} (l : list A) (i : nat) : result A :=
  match nth_error l i with
  | Some a => Ok a
  | None => Raise IndexError
  end.

(** [sep.join(l)] *)
Fixpoint join (sep : string) (l : list string) : string :=
  match l with
  | [] => EmptyString
  | [a] => a
  | a :: r => a ++ sep ++ join sep r
  end.

(** The digits of an integer literal after its sign: decimal digits, single
    underscores allowed between two digits. *)
Definition digit (c : ascii) : option (uint -> uint) :=
  match c with
  | "0"%char => Some D0 | "1"%char => Some D1 | "2"%char => Some D2
  | "3"%char => Some D3 | "4"%char => Some D4 | "5"%char => Some D5
  | "6"%char => Some D6 | "7"%char => Some D7 | "8"%char => Some D8
  | "9"%char => Some D9
  | _ => None
  end.

Definition isdigit (c : ascii) : bool :=
  match digit c with
  | Some _ => true
  | None => false
  end.

(** The characters [str] prints for an [int]. *)
Definition sign_or_digit (c : ascii) : bool :=
  isdigit c || Ascii.eqb c "-".

Fixpoint digits (after_digit : bool) (s : string) : option uint :=
  match s with
  | EmptyString => if after_digit then Some Nil else None
  | String c r =>
      match digit c with
      | Some d => option_map d (digits true r)
      | None =>
          if (Ascii.eqb c "_" && after_digit)%bool then digits false r
          else None
      end
  end.

(** [int(s)] *)
Definition int (s : string) : result Z :=
  let s := strip s in
  let '(neg, body) :=
    match s with
    | String "-" r => (true, r)
    | String "+" r => (false, r)
    | _ => (false, s)
    end in
  match digits false body with
  | Some u => Ok (if neg then - Z.of_uint u else Z.of_uint u)
  | None => Raise ValueError
  end.

(** Predicates on strings used to state what the analyzer needs of a
    completion: the first character satisfies [p], the last one does, all
    do, and no occurrence of [sub] in [a ++ rest] starts inside [a]. *)
Definition first_is (p : ascii -> bool) (s : string) : bool :=
  match s with
  | EmptyString => false
  | String c _ => p c
  end.

Fixpoint last_is (p : ascii -> bool) (s : string) : bool :=
  match s with
  | EmptyString => false
  | String c EmptyString => p c
  | String _ r => last_is p r
  end.

Fixpoint all (p : ascii -> bool) (s : string) : bool :=
  match s with
  | EmptyString => true
  | String c r => p c && all p r
  end.

Fixpoint starts_free (sub a rest : string) : bool :=
  match a with
  | EmptyString => true
  | String c a' =>
      negb (prefix sub (String c a' ++ rest)) && starts_free sub a' rest
  end.

(** The one-character string of the double quote. *)
Definition dquote : ascii := Ascii false true false false false true false false.
Definition quote : string := String dquote EmptyString.

(** [str(n)], the text an f-string puts for an [int] *)
Definition of_int (n : Z) : string := NilZero.string_of_int (Z.to_int n).

End Str.

(** ** TaskAnalyzer *)

(** The dict returned by [analyze]: the key ["action"], and the keys
    ["description"] and ["id"] when present. *)
Module Analysis.
Record t : Type := mk
  { action : option string; description : option string; id : option Z }.

(** [analysis[k]] *)
Definition getitem {A} (v : option A) : result A :=
  match v with
  | Some a => Ok a
  | None => Raise KeyError
  end.
End Analysis.

Definition bind_result {A B} (r : result A) (k : A -> result B) : result B :=
  match r with
  | Ok a => k a
  | Raise e => Raise e
  end.

Notation "'try' x := r 'in' k" := (bind_result r (fun x => k))
  (at level 100, x name, r at next level, right associativity).

Module TaskAnalyzer.

(** The text the chain gives back is parsed; [chain_invoke] is the chain
    [prompt | llm | StrOutputParser()]. *)
Definition parse : string -> result Analysis.t := fun result =>
  try first := Str.item (Str.split "," result) 0 in
  try second := Str.item (Str.split ":" first) 1 in
  let action := Str.strip second in
  try description :=
    if Str.contains "Description:" result then
      try d := Str.item (Str.split "Description:" result) 1 in
      Ok (Some (Str.strip_chars Str.quote (Str.strip d)))
    else Ok None in
  try id :=
    if Str.contains "ID:" result then
      try d := Str.item (Str.split "ID:" result) 1 in
      try n := Str.int (Str.strip d) in
      Ok (Some n)
    else Ok None in
  Ok (Analysis.mk (Some action) description id).

Definition analyze (chain_invoke : string -> string) (user_input : string)
  : result Analysis.t :=
  parse (chain_invoke user_input).

End TaskAnalyzer.

(** ** TaskService *)

Definition is_action (action : option string) (verb : string) : bool :=
  match action with
  | Some a => String.eqb a verb
  | None => false
  end.

Module TaskService.

Definition render_task (t : TaskResponse.t) : string :=
  "ID: " ++ Str.of_int (TaskResponse.id t)
  ++ ", Description: " ++ TaskResponse.description t.

Definition handle_action (now user_id : Z) (analysis : Analysis.t) : M string :=
  let action := Analysis.action analysis in
  if is_action action "create" then
    d <- lift (Analysis.getitem (Analysis.description analysis)) ;;
    result <- TaskRepository.create now user_id (TaskCreate.mk d) ;;
    ret ("Task created: " ++ TaskResponse.description result
         ++ " (ID: " ++ Str.of_int (TaskResponse.id result) ++ ")")
  else if is_action action "read" then
    task_id <- lift (Analysis.getitem (Analysis.id analysis)) ;;
    task <- TaskRepository.read user_id task_id ;;
    match task with
    | Some task =>
        ret ("Task: " ++ TaskResponse.description task
             ++ " (ID: " ++ Str.of_int (TaskResponse.id task) ++ ")")
    | None => ret "Task not found"
    end
  else if is_action action "update" then
    let task := TaskUpdate.mk (Analysis.description analysis) in
    task_id <- lift (Analysis.getitem (Analysis.id analysis)) ;;
    result <- TaskRepository.update user_id task_id task ;;
    match result with
    | Some result =>
        ret ("Task updated: " ++ TaskResponse.description result
             ++ " (ID: " ++ Str.of_int (TaskResponse.id result) ++ ")")
    | None => ret "Task not found"
    end
  else if is_action action "delete" then
    task_id <- lift (Analysis.getitem (Analysis.id analysis)) ;;
    success <- TaskRepository.delete user_id task_id ;;
    ret (if success : bool then "Task deleted" else "Task not found")
  else if is_action action "list" then
    tasks <- TaskRepository.list user_id ;;
    match tasks with
    | [] => ret "No tasks found"
    | _ :: _ => ret (Str.join (String "010" "") (map render_task tasks))
    end
  else ret "Invalid action".

End TaskService.

(** ** TaskBot *)

Module TaskBot.

(** The handler of every message but [/start]; the value is the text given
    to [message.answer]. *)
Definition handle_message (chain_invoke : string -> string) (now : Z)
    (from_user_id : Z) (text : string) : M string :=
  analysis <- lift (TaskAnalyzer.analyze chain_invoke text) ;;
  response <- TaskService.handle_action now from_user_id analysis ;;
  ret response.

End TaskBot.

(** The five verbs the service knows. *)
Definition known_actions : list string :=
  ["create"; "read"; "update"; "delete"; "list"].



(** The text of a completion [Action: <verb>] and of a completion
    [Action: <verb>, ID: <int>, Description: "<text>"], the shape of the
    update response of the analyzer's own list of responses (line 99). *)
Definition completion_action (verb : string) : string := "Action: " ++ verb.

Definition completion_id_description (verb : string) (n : Z) (text : string)
  : string :=
  "Action: " ++ verb ++ ", ID: " ++ Str.of_int n
  ++ ", Description: " ++ Str.quote ++ text ++ Str.quote.

(** The rows of the users other than [u], in table order. *)
Definition others (u : Z) (s : Session) : list Task.t :=
  filter (fun t => negb (Task.user_id t =? u)) s.

(** The line of the list response for a row, and the newline. *)
Definition render_row (t : Task.t) : string :=
  "ID: " ++ Str.of_int (Task.id t) ++ ", Description: " ++ Task.description t.

Definition newline : ascii := "010"%char.

(** ** The table invariant, lookups and traces of calls *)

(** The primary key constraint of the [tasks] table. *)
Definition primary_key (s : Session) : Prop := NoDup (map Task.id s).

(** The row with identifier [task_id] owned by [user_id], when there is one. *)
Definition selected (user_id task_id : Z) (s : Session) : option Task.t :=
  find (fun t => (Task.id t =? task_id) && (Task.user_id t =? user_id))%bool s.

(** The rows owned by [user_id], in table order. *)
Definition owned_by (user_id : Z) (s : Session) : list Task.t :=
  filter (fun t => Task.user_id t =? user_id) s.

(** The row a successful update leaves in place of [t]. *)
Definition updated (t : Task.t) (d : option string) : Task.t :=
  match truthy d with
  | Some d => set_description t d
  | None => t
  end.

(** A call of a repository method. *)
Inductive call : Type :=
| Create (now user_id : Z) (description : string)
| Read (user_id task_id : Z)
| Update (user_id task_id : Z) (description : option string)
| Delete (user_id task_id : Z)
| List (user_id : Z).

(** The session after a call (whether it returned or raised). *)
Definition run_call (c : call) (s : Session) : Session :=
  match c with
  | Create now u d => fst (TaskRepository.create now u (TaskCreate.mk d) s)
  | Read u k => fst (TaskRepository.read u k s)
  | Update u k d => fst (TaskRepository.update u k (TaskUpdate.mk d) s)
  | Delete u k => fst (TaskRepository.delete u k s)
  | List u => fst (TaskRepository.list u s)
  end.





(** ** The repository on a table with a primary key *)

Section Repository.

Lemma select_absent (u k : Z) (s : Session) :
  ~ In k (map Task.id s) ->
  filter (fun t => (Task.id t =? k) && (Task.user_id t =? u))%bool s = [].
Proof.
  induction s as [|b s IH]; simpl; intros Hnotin; [reflexivity|].
  destruct (Task.id b =? k) eqn:Hb.
  - apply Z.eqb_eq in Hb. exfalso. apply Hnotin. now left.
  - simpl. apply IH. intros H. apply Hnotin. now right.
Qed.

Lemma select_by_key (u k : Z) (s : Session) :
  primary_key s ->
  filter (fun t => (Task.id t =? k) && (Task.user_id t =? u))%bool s
  = match selected u k s with Some t => [t] | None => [] end.
Proof.
  unfold primary_key, selected.
  induction s as [|a s IH]; intros Hnd; [reflexivity|].
  simpl in *. inversion Hnd as [|? ? Hnotin Hnd']; subst.
  destruct ((Task.id a =? k) && (Task.user_id a =? u))%bool eqn:Ha.
  - f_equal.
    apply andb_prop in Ha. destruct Ha as [Hid _].
    apply Z.eqb_eq in Hid. subst k.
    now apply select_absent.
  - now apply IH.
Qed.

Lemma selected_Some (u k : Z) (s : Session) (t : Task.t) :
  selected u k s = Some t -> In t s /\ Task.id t = k /\ Task.user_id t = u.
Proof.
  unfold selected. intros H. apply find_some in H. destruct H as [Hin Hp].
  apply andb_prop in Hp. destruct Hp as [H1 H2].
  apply Z.eqb_eq in H1. apply Z.eqb_eq in H2. auto.
Qed.

Lemma selected_None (u k : Z) (s : Session) :
  selected u k s = None ->
  forall t, In t s -> Task.id t = k -> Task.user_id t <> u.
Proof.
  unfold selected. intros H t Hin Hid Hu.
  pose proof (find_none _ _ H t Hin) as Hp. simpl in Hp.
  rewrite Hid, Hu, !Z.eqb_refl in Hp. discriminate.
Qed.

Lemma id_unique (s : Session) (t t' : Task.t) :
  primary_key s -> In t s -> In t' s -> Task.id t = Task.id t' -> t = t'.
Proof.
  unfold primary_key. induction s as [|a s IH]; simpl; [tauto|].
  intros Hnd Ht Ht' Hid. inversion Hnd as [|? ? Hnotin Hnd']; subst.
  destruct Ht as [Ht|Ht], Ht' as [Ht'|Ht'].
  - congruence.
  - subst a. exfalso. apply Hnotin. rewrite Hid. now apply in_map.
  - subst a. exfalso. apply Hnotin. rewrite <- Hid. now apply in_map.
  - now apply IH.
Qed.

Lemma selected_own (s : Session) (t : Task.t) :
  primary_key s -> In t s -> selected (Task.user_id t) (Task.id t) s = Some t.
Proof.
  intros Hpk Hin.
  destruct (selected (Task.user_id t) (Task.id t) s) as [t'|] eqn:Hsel.
  - apply selected_Some in Hsel. destruct Hsel as (Hin' & Hid & _).
    f_equal. now apply (id_unique s).
  - exfalso. now apply (selected_None _ _ _ Hsel t Hin).
Qed.


(** What each method does on a table with a primary key. *)

Lemma read_spec (u k : Z) (s : Session) :
  primary_key s ->
  TaskRepository.read u k s = (s, Ok (option_map response_of (selected u k s))).
Proof.
  intros Hpk. unfold TaskRepository.read, bind, select_by_id_and_user, lift.
  rewrite (select_by_key u k s Hpk).
  destruct (selected u k s); reflexivity.
Qed.

Lemma update_spec (u k : Z) (task : TaskUpdate.t) (s : Session) :
  primary_key s ->
  TaskRepository.update u k task s
  = match selected u k s with
    | Some t =>
        let t' := updated t (TaskUpdate.description task) in
        (map (fun x => if Task.id x =? Task.id t' then t' else x) s,
         Ok (Some (response_of t')))
    | None => (s, Ok None)
    end.
Proof.
  intros Hpk. unfold TaskRepository.update, bind, select_by_id_and_user, lift.
  rewrite (select_by_key u k s Hpk).
  destruct (selected u k s); reflexivity.
Qed.

Lemma delete_spec (u k : Z) (s : Session) :
  primary_key s ->
  TaskRepository.delete u k s
  = match selected u k s with
    | Some t => (filter (fun x => negb (Task.id x =? Task.id t)) s, Ok true)
    | None => (s, Ok false)
    end.
Proof.
  intros Hpk. unfold TaskRepository.delete, bind, select_by_id_and_user, lift.
  rewrite (select_by_key u k s Hpk).
  destruct (selected u k s); reflexivity.
Qed.

Lemma list_spec (u : Z) (s : Session) :
  TaskRepository.list u s = (s, Ok (map response_of (owned_by u s))).
Proof. reflexivity. Qed.

Lemma create_spec (now u : Z) (task : TaskCreate.t) (s : Session) :
  TaskRepository.create now u task s
  = ((s ++ [Task.mk (next_id s) u (TaskCreate.description task) now])%list,
     Raise NameError).
Proof. reflexivity. Qed.

End Repository.

(** ** The primary key is kept by every method *)

Section Invariant.

Lemma fold_max_ge (xs : list Z) (x y : Z) :
  In y (x :: xs) -> y <= fold_left Z.max xs x.
Proof.
  revert x y. induction xs as [|a xs IH]; simpl; intros x y H.
  - destruct H as [->|[]]. lia.
  - destruct H as [->|[->|H]].
    + transitivity (Z.max y a); [lia|apply IH; left; reflexivity].
    + transitivity (Z.max x y); [lia|apply IH; left; reflexivity].
    + apply IH. now right.
Qed.

Lemma next_id_above (s : Session) (k : Z) :
  In k (map Task.id s) -> k < next_id s.
Proof.
  unfold next_id. destruct (map Task.id s) as [|x xs]; intros H.
  - destruct H.
  - pose proof (fold_max_ge xs x k H). lia.
Qed.

Lemma next_id_fresh (s : Session) : ~ In (next_id s) (map Task.id s).
Proof. intros H. apply next_id_above in H. lia. Qed.

Lemma primary_key_insert (s : Session) (t : Task.t) :
  primary_key s -> Task.id t = next_id s -> primary_key (s ++ [t])%list.
Proof.
  unfold primary_key. intros Hpk Hid. rewrite map_app. simpl.
  apply NoDup_app; [assumption| |].
  - constructor; [simpl; tauto|constructor].
  - intros a Ha [<-|[]]. rewrite Hid in Ha. now apply next_id_fresh in Ha.
Qed.

Lemma primary_key_filter (p : Task.t -> bool) (s : Session) :
  primary_key s -> primary_key (filter p s).
Proof.
  unfold primary_key. induction s as [|a s IH]; simpl; intros Hnd; [assumption|].
  inversion Hnd as [|? ? Hnotin Hnd']; subst.
  destruct (p a); simpl; [|now apply IH].
  constructor; [|now apply IH].
  intros H. apply Hnotin. apply in_map_iff in H. destruct H as (x & Hx & Hin).
  apply filter_In in Hin. apply in_map_iff. exists x. tauto.
Qed.

Lemma map_id_replace (t' : Task.t) (s : Session) :
  map Task.id (map (fun x => if Task.id x =? Task.id t' then t' else x) s)
  = map Task.id s.
Proof.
  rewrite map_map. apply map_ext. intros x.
  destruct (Task.id x =? Task.id t') eqn:H; [|reflexivity].
  apply Z.eqb_eq in H. now symmetry.
Qed.

Lemma updated_id (t : Task.t) (d : option string) :
  Task.id (updated t d) = Task.id t.
Proof. unfold updated. destruct (truthy d); reflexivity. Qed.

Lemma updated_user_id (t : Task.t) (d : option string) :
  Task.user_id (updated t d) = Task.user_id t.
Proof. unfold updated. destruct (truthy d); reflexivity. Qed.

Lemma updated_created_at (t : Task.t) (d : option string) :
  Task.created_at (updated t d) = Task.created_at t.
Proof. unfold updated. destruct (truthy d); reflexivity. Qed.

Lemma primary_key_run_call (c : call) (s : Session) :
  primary_key s -> primary_key (run_call c s).
Proof.
  intros Hpk. destruct c as [now u d|u k|u k d|u k|u]; cbn [run_call].
  - rewrite create_spec. simpl. now apply primary_key_insert.
  - now rewrite read_spec.
  - rewrite update_spec by assumption.
    destruct (selected u k s); simpl; [|assumption].
    unfold primary_key. now rewrite map_id_replace.
  - rewrite delete_spec by assumption.
    destruct (selected u k s); simpl; [|assumption].
    now apply primary_key_filter.
  - assumption.
Qed.



(** Replacing a row by itself, and removing a row by its key. *)

Lemma replace_same (s : Session) (t : Task.t) :
  primary_key s -> In t s ->
  map (fun x => if Task.id x =? Task.id t then t else x) s = s.
Proof.
  intros Hpk Hin. rewrite <- (map_id s) at 2. apply map_ext_in.
  intros x Hx. destruct (Task.id x =? Task.id t) eqn:H; [|reflexivity].
  apply Z.eqb_eq in H. symmetry. now apply (id_unique s).
Qed.

Lemma remove_absent (k : Z) (s : Session) :
  ~ In k (map Task.id s) ->
  filter (fun x => negb (Task.id x =? k)) s = s.
Proof.
  induction s as [|a s IH]; simpl; intros Hnotin; [reflexivity|].
  destruct (Task.id a =? k) eqn:Ha.
  - apply Z.eqb_eq in Ha. exfalso. apply Hnotin. now left.
  - simpl. f_equal. apply IH. intros H. apply Hnotin. now right.
Qed.

Lemma remove_count (p : Task.t -> bool) (s : Session) (t : Task.t) :
  primary_key s -> In t s ->
  List.length (filter p s)
  = ((if p t then 1%nat else 0%nat)
     + List.length
         (filter p (filter (fun x => negb (Task.id x =? Task.id t)%Z) s)))%nat.
Proof.
  unfold primary_key. induction s as [|a s IH]; simpl; [tauto|].
  intros Hnd Hin. inversion Hnd as [|? ? Hnotin Hnd']; subst.
  destruct Hin as [->|Hin].
  - rewrite Z.eqb_refl. simpl. rewrite (remove_absent _ _ Hnotin).
    destruct (p t); reflexivity.
  - destruct (Task.id a =? Task.id t) eqn:Ha.
    + apply Z.eqb_eq in Ha. exfalso. apply Hnotin. rewrite Ha. now apply in_map.
    + simpl. destruct (p a); simpl; rewrite (IH Hnd' Hin);
        destruct (p t); lia.
Qed.

End Invariant.

(** ** Properties of the repository *)




(** C2. [create] never returns a task: for every user, description, clock
    reading and table, the row is inserted and the call raises while the
    response is built (line 50), so no identifier or timestamp reaches the
    caller. *)
Theorem create_raises (now u : Z) (task : TaskCreate.t) (s : Session) :
  snd (TaskRepository.create now u task s) = Raise NameError.
Proof. reflexivity. Qed.

(** C3. Update frame: for a stored task, an update by its owner with [None]
    or the empty string returns the task as it is and leaves the table as it
    is; an update with a non-empty string puts that string in the description
    of this row and touches nothing else; in both cases the response has the
    identifier and the timestamp of the stored row, and the owner reads the
    same response afterwards. *)
Theorem update_frame (s : Session) (t : Task.t) (d : option string) :
  primary_key s -> In t s ->
  let u := Task.user_id t in
  let k := Task.id t in
  (d = None \/ d = Some "" ->
     TaskRepository.update u k (TaskUpdate.mk d) s
     = (s, Ok (Some (response_of t))))
  /\ (forall c r, d = Some (String c r) ->
     let t' := Task.mk k u (String c r) (Task.created_at t) in
     TaskRepository.update u k (TaskUpdate.mk d) s
     = (map (fun x => if Task.id x =? k then t' else x) s,
        Ok (Some (TaskResponse.mk k (String c r) (Task.created_at t)))))
  /\ (exists s' resp,
        TaskRepository.update u k (TaskUpdate.mk d) s = (s', Ok (Some resp))
        /\ TaskResponse.id resp = k
        /\ TaskResponse.created_at resp = Task.created_at t
        /\ map Task.id s' = map Task.id s
        /\ map Task.user_id s' = map Task.user_id s
        /\ map Task.created_at s' = map Task.created_at s
        /\ TaskRepository.read u k s' = (s', Ok (Some resp))).
Proof.
  intros Hpk Hin u k. subst u k.
  pose proof (selected_own s t Hpk Hin) as Hsel.
  repeat split.
  - intros Hd. rewrite update_spec, Hsel by assumption. cbn.
    assert (Hu : updated t d = t) by (destruct Hd; subst d; reflexivity).
    rewrite Hu. now rewrite replace_same.
  - intros c r ->. rewrite update_spec, Hsel by assumption. reflexivity.
  - set (t' := updated t d).
    set (s' := map (fun x => if Task.id x =? Task.id t' then t' else x) s).
    assert (Hin' : In t' s').
    { unfold s'. apply in_map_iff. exists t. split; [|assumption].
      unfold t'. now rewrite updated_id, Z.eqb_refl. }
    assert (Hpk' : primary_key s')
      by (unfold primary_key, s'; now rewrite map_id_replace).
    exists s', (response_of t').
    split; [rewrite update_spec, Hsel by assumption; reflexivity|].
    split; [apply updated_id|].
    split; [apply updated_created_at|].
    split; [apply map_id_replace|].
    split; [|split].
    + unfold s'. rewrite map_map. apply map_ext_in. intros x Hx.
      destruct (Task.id x =? Task.id t') eqn:H; [|reflexivity].
      apply Z.eqb_eq in H. unfold t' in *. rewrite updated_id in H.
      rewrite updated_user_id. f_equal. symmetry. now apply (id_unique s).
    + unfold s'. rewrite map_map. apply map_ext_in. intros x Hx.
      destruct (Task.id x =? Task.id t') eqn:H; [|reflexivity].
      apply Z.eqb_eq in H. unfold t' in *. rewrite updated_id in H.
      rewrite updated_created_at. f_equal. symmetry. now apply (id_unique s).
    + rewrite read_spec by assumption.
      pose proof (selected_own s' t' Hpk' Hin') as H.
      unfold t' in H at 1 2. rewrite updated_user_id, updated_id in H.
      now rewrite H.
Qed.

Lemma update_frame_witness :
  TaskRepository.update 123 1 (TaskUpdate.mk (Some "Updated task"))
    [Task.mk 1 123 "Test task" 0; Task.mk 2 7 "Other" 3]
  = ([Task.mk 1 123 "Updated task" 0; Task.mk 2 7 "Other" 3],
     Ok (Some (TaskResponse.mk 1 "Updated task" 0))).
Proof.
  destruct (update_frame
              [Task.mk 1 123 "Test task" 0; Task.mk 2 7 "Other" 3]
              (Task.mk 1 123 "Test task" 0) (Some "Updated task"))
    as (_ & H & _).
  - constructor; [simpl; intros [H|[]]; discriminate|].
    constructor; [simpl; tauto|constructor].
  - left; reflexivity.
  - exact (H _ _ eq_refl).
Defined.



(** C10. Delete frame: on a table with its primary key, [delete] removes the
    rows matching both the identifier and the owner, which is at most one
    row; every other row, of this user or of another, stays in the table
    as it is, in the same order, and no row is added. *)
Theorem delete_frame (u k : Z) (s : Session) :
  primary_key s ->
  let s' := fst (TaskRepository.delete u k s) in
  s' = filter (fun x => negb ((Task.id x =? k) && (Task.user_id x =? u))) s
  /\ (forall x, In x s -> ~ (Task.id x = k /\ Task.user_id x = u) -> In x s')
  /\ (forall x, In x s' -> In x s)
  /\ (List.length s <= S (List.length s'))%nat.
Proof.
  intros Hpk s'.
  assert (Heq : s' = filter
            (fun x => negb ((Task.id x =? k) && (Task.user_id x =? u))) s).
  { subst s'. rewrite delete_spec by assumption.
    destruct (selected u k s) as [t|] eqn:Hsel; cbn [fst].
    - pose proof (selected_Some _ _ _ _ Hsel) as (Hin & Hid & Hu).
      apply filter_ext_in. intros x Hx.
      destruct (Task.id x =? Task.id t) eqn:Hxt.
      + apply Z.eqb_eq in Hxt.
        assert (x = t) by now apply (id_unique s). subst x.
        now rewrite Hid, Hu, !Z.eqb_refl.
      + rewrite Hid in Hxt. now rewrite Hxt.
    - rewrite <- (filter_true s) at 1. apply filter_ext_in. intros x Hx.
      destruct (Task.id x =? k) eqn:Hxk; [|reflexivity].
      apply Z.eqb_eq in Hxk.
      pose proof (selected_None _ _ _ Hsel x Hx Hxk) as Hne.
      apply Z.eqb_neq in Hne. now rewrite Hne. }
  split; [exact Heq|]. split; [|split].
  - intros x Hx Hno. rewrite Heq. apply filter_In. split; [assumption|].
    destruct (Task.id x =? k) eqn:H1; [|reflexivity].
    destruct (Task.user_id x =? u) eqn:H2; [|reflexivity].
    apply Z.eqb_eq in H1. apply Z.eqb_eq in H2. exfalso. now apply Hno.
  - intros x Hx. rewrite Heq in Hx. now apply filter_In in Hx.
  - subst s'. rewrite delete_spec by assumption.
    destruct (selected u k s) as [t|] eqn:Hsel; cbn [fst]; [|lia].
    pose proof (selected_Some _ _ _ _ Hsel) as (Hin & _).
    pose proof (remove_count (fun _ => true) s t Hpk Hin) as H.
    rewrite !filter_true in H. rewrite H. simpl. lia.
Qed.

Lemma delete_frame_witness :
  fst (TaskRepository.delete 123 1
         [Task.mk 1 123 "a" 0; Task.mk 2 123 "b" 1; Task.mk 3 7 "c" 2])
  = [Task.mk 2 123 "b" 1; Task.mk 3 7 "c" 2].
Proof.
  destruct (delete_frame 123 1
              [Task.mk 1 123 "a" 0; Task.mk 2 123 "b" 1; Task.mk 3 7 "c" 2])
    as (H & _).
  - constructor; [simpl; intros [H|[H|[]]]; discriminate|].
    constructor; [simpl; intros [H|[]]; discriminate|].
    constructor; [simpl; tauto|constructor].
  - exact H.
Defined.




(** ** Counting the rows of a user along a trace *)

Section Counting.

Variable u : Z.







End Counting.


(** ** Facts on the string methods *)

Section StrFacts.

Lemma prefix_app (p r : string) : prefix p (p ++ r) = true.
Proof.
  induction p as [|c p IH]; simpl; [now destruct r|].
  destruct (ascii_dec c c); [assumption|congruence].
Qed.

Lemma prefix_occurs (sub a : string) (c : ascii) :
  prefix sub a = true -> Str.occurs c sub = true -> Str.occurs c a = true.
Proof.
  revert a. induction sub as [|x sub IH]; intros a Hp Hc; [discriminate|].
  destruct a as [|y a]; [discriminate|]. simpl in *.
  destruct (ascii_dec x y) as [->|]; [|discriminate].
  destruct (Ascii.eqb c y); [reflexivity|]. simpl in *. now apply IH.
Qed.

Lemma prefix_app_cut (sub a r : string) (c : ascii) :
  prefix sub (a ++ String c r) = true -> Str.occurs c sub = false ->
  prefix sub a = true.
Proof.
  revert a. induction sub as [|x sub IH]; intros a Hp Hc.
  - now destruct a.
  - simpl in Hc. apply orb_false_elim in Hc. destruct Hc as [Hx Hc].
    destruct a as [|y a]; simpl in *.
    + destruct (ascii_dec x c) as [->|]; [|discriminate].
      now rewrite Ascii.eqb_refl in Hx.
    + destruct (ascii_dec x y); [|discriminate]. now apply IH.
Qed.


Lemma contains_app_skip (sub a r : string) :
  Str.starts_free sub a r = true ->
  Str.contains sub (a ++ r) = Str.contains sub r.
Proof.
  induction a as [|c a IH]; intros H; [reflexivity|].
  cbn [Str.starts_free] in H. apply andb_prop in H. destruct H as [H1 H2].
  apply negb_true_iff in H1.
  change (Str.contains sub (String c a ++ r))
    with (prefix sub (String c a ++ r) || Str.contains sub (a ++ r)).
  rewrite H1. simpl. now apply IH.
Qed.

Lemma contains_absent (sub a : string) (c : ascii) :
  Str.occurs c sub = true -> Str.occurs c a = false ->
  Str.contains sub a = false.
Proof.
  intros Hc. induction a as [|y a IH]; intros Ha.
  - destruct sub; [discriminate|reflexivity].
  - change (Str.contains sub (String y a))
      with (prefix sub (String y a) || Str.contains sub a).
    simpl in Ha. apply orb_false_elim in Ha. destruct Ha as [Hy Ha].
    rewrite (IH Ha), orb_false_r.
    destruct (prefix sub (String y a)) eqn:Hp; [|reflexivity].
    pose proof (prefix_occurs _ _ c Hp Hc) as H. simpl in H.
    now rewrite Hy, Ha in H.
Qed.

(** Three ways to see that no occurrence starts in a segment. *)

Lemma starts_free_app (sub a b r : string) :
  Str.starts_free sub (a ++ b) r
  = Str.starts_free sub a (b ++ r) && Str.starts_free sub b r.
Proof.
  induction a as [|c a IH]; [reflexivity|].
  cbn [append Str.starts_free]. rewrite IH.
  assert (E : forall x y z : string, (x ++ y) ++ z = x ++ y ++ z).
  { intros x y z. induction x as [|d x IHx]; [reflexivity|].
    simpl. now rewrite IHx. }
  rewrite E. now rewrite andb_assoc.
Qed.

Lemma starts_free_first (c0 : ascii) (sub a r : string) :
  Str.occurs c0 a = false -> Str.starts_free (String c0 sub) a r = true.
Proof.
  induction a as [|y a IH]; intros Ha; [reflexivity|].
  simpl in Ha. apply orb_false_elim in Ha. destruct Ha as [Hy Ha].
  cbn [Str.starts_free append prefix].
  destruct (ascii_dec c0 y) as [->|];
    [now rewrite Ascii.eqb_refl in Hy|].
  simpl. now apply IH.
Qed.

Lemma starts_free_cut (sub a r : string) (c : ascii) :
  Str.contains sub a = false -> Str.occurs c sub = false ->
  Str.starts_free sub a (String c r) = true.
Proof.
  intros Ha Hc. induction a as [|y a IH]; [reflexivity|].
  change (Str.contains sub (String y a))
    with (prefix sub (String y a) || Str.contains sub a) in Ha.
  apply orb_false_elim in Ha. destruct Ha as [Hp Ha].
  cbn [Str.starts_free]. rewrite (IH Ha), andb_true_r.
  apply negb_true_iff.
  destruct (prefix sub (String y a ++ String c r)) eqn:H; [|reflexivity].
  apply prefix_app_cut in H; [congruence|assumption].
Qed.

(** [split] around the first occurrence of the separator. *)

Lemma split_skip (sep p r : string) :
  Str.split_from sep (String.length p) (p ++ r) = Str.split_from sep O r.
Proof.
  induction p as [|c p IH]; [reflexivity|]. exact IH.
Qed.

Lemma split_found (c : ascii) (sep r : string) :
  Str.split_from (String c sep) O (String c sep ++ r)
  = EmptyString :: Str.split_from (String c sep) O r.
Proof.
  change (Str.split_from (String c sep) O (String c sep ++ r))
    with (if prefix (String c sep) (String c sep ++ r)
          then EmptyString
               :: Str.split_from (String c sep) (String.length sep) (sep ++ r)
          else Str.cons_head c (Str.split_from (String c sep) O (sep ++ r))).
  now rewrite prefix_app, split_skip.
Qed.

Lemma split_app (c : ascii) (sep a r : string) :
  Str.starts_free (String c sep) a (String c sep ++ r) = true ->
  Str.split (String c sep) (a ++ String c sep ++ r)
  = a :: Str.split (String c sep) r.
Proof.
  unfold Str.split. induction a as [|y a IH]; intros H.
  - apply split_found.
  - cbn [Str.starts_free] in H. apply andb_prop in H. destruct H as [H1 H2].
    apply negb_true_iff in H1.
    change (Str.split_from (String c sep) O (String y a ++ String c sep ++ r))
      with (if prefix (String c sep) (String y a ++ String c sep ++ r)
            then EmptyString
                 :: Str.split_from (String c sep) (String.length sep)
                      (a ++ String c sep ++ r)
            else Str.cons_head y
                   (Str.split_from (String c sep) O (a ++ String c sep ++ r))).
    rewrite H1, (IH H2). reflexivity.
Qed.

Lemma split_none (sep s : string) :
  Str.contains sep s = false -> Str.split sep s = [s].
Proof.
  unfold Str.split. induction s as [|y s IH]; intros H; [reflexivity|].
  change (Str.contains sep (String y s))
    with (prefix sep (String y s) || Str.contains sep s) in H.
  apply orb_false_elim in H. destruct H as [Hp H].
  cbn [Str.split_from]. rewrite Hp, (IH H). reflexivity.
Qed.

(** Stripping. *)

Lemma lstrip_first (p : ascii -> bool) (s : string) :
  Str.first_is p s = false -> Str.lstrip_by p s = s.
Proof. destruct s as [|c s]; simpl; [reflexivity|]. now intros ->. Qed.

Lemma rstrip_cons (p : ascii -> bool) (c : ascii) (r : string) :
  Str.rstrip_by p (String c r)
  = match Str.rstrip_by p r with
    | EmptyString => if p c then EmptyString else String c EmptyString
    | String d r' => String c (String d r')
    end.
Proof. reflexivity. Qed.

Lemma rstrip_last (p : ascii -> bool) (s : string) :
  Str.last_is p s = false -> Str.rstrip_by p s = s.
Proof.
  induction s as [|c s IH]; intros H; [reflexivity|].
  destruct s as [|d s].
  - simpl in *. now rewrite H.
  - rewrite rstrip_cons, (IH H). reflexivity.
Qed.



End StrFacts.

(** ** [int] reads back what [str] prints *)

Section IntFacts.

Lemma all_weaken (p q : ascii -> bool) (s : string) :
  (forall c, p c = true -> q c = true) ->
  Str.all p s = true -> Str.all q s = true.
Proof.
  intros Hpq. induction s as [|c s IH]; simpl; [reflexivity|].
  intros H. apply andb_prop in H. destruct H as [Hc Hs].
  now rewrite (Hpq c Hc), IH.
Qed.

Lemma all_occurs (p : ascii -> bool) (s : string) (c : ascii) :
  Str.all p s = true -> p c = false -> Str.occurs c s = false.
Proof.
  intros Hs Hc. induction s as [|d s IH]; simpl in *; [reflexivity|].
  apply andb_prop in Hs. destruct Hs as [Hd Hs]. rewrite (IH Hs), orb_false_r.
  destruct (Ascii.eqb_spec c d) as [->|]; [congruence|reflexivity].
Qed.

Lemma all_first_last (p q : ascii -> bool) (s : string) :
  (forall c, p c = true -> q c = false) -> Str.all p s = true ->
  Str.first_is q s = false /\ Str.last_is q s = false.
Proof.
  intros Hpq. induction s as [|c s IH]; simpl; intros H; [now split|].
  apply andb_prop in H. destruct H as [Hc Hs]. destruct (IH Hs) as [_ Hl].
  split; [now apply Hpq|]. destruct s; [now apply Hpq|exact Hl].
Qed.

Lemma all_uint (u : uint) :
  Str.all Str.isdigit (NilEmpty.string_of_uint u) = true.
Proof. induction u; simpl; auto. Qed.



Lemma isdigit_not_space (c : ascii) :
  Str.sign_or_digit c = true -> Str.isspace c = false.
Proof.
  destruct c as [[|] [|] [|] [|] [|] [|] [|] [|]];
    vm_compute; intros H; (reflexivity || discriminate).
Qed.

Lemma to_int_nonnil (n : Z) :
  match Z.to_int n with Pos d | Neg d => d <> Nil end.
Proof.
  destruct n; simpl; [discriminate| |];
    apply DecimalPos.Unsigned.to_uint_nonnil.
Qed.

Lemma all_of_int (n : Z) : Str.all Str.sign_or_digit (Str.of_int n) = true.
Proof.
  assert (Hd : forall u, Str.all Str.sign_or_digit (NilZero.string_of_uint u) = true).
  { intros u. destruct u; try reflexivity;
      apply (all_weaken Str.isdigit); try apply all_uint;
      intros c Hc; unfold Str.sign_or_digit; now rewrite Hc. }
  unfold Str.of_int, NilZero.string_of_int.
  destruct (Z.to_int n); [apply Hd|]. simpl. apply Hd.
Qed.




End IntFacts.

(** ** The analyzer on the two shapes of completion *)

Section Parse.

Variable verb : string.
Hypothesis verb_comma : Str.occurs "," verb = false.
Hypothesis verb_colon : Str.occurs ":" verb = false.
Hypothesis verb_first : Str.first_is Str.isspace verb = false.
Hypothesis verb_last : Str.last_is Str.isspace verb = false.

Lemma append_assoc (x y z : string) : (x ++ y) ++ z = x ++ y ++ z.
Proof. induction x as [|c x IH]; [reflexivity|]. simpl. now rewrite IH. Qed.

Lemma split_comma (r : string) :
  Str.split "," ("Action: " ++ verb ++ String "," r)
  = ("Action: " ++ verb) :: Str.split "," r.
Proof.
  rewrite <- (split_app "," "" ("Action: " ++ verb) r).
  - now rewrite append_assoc.
  - rewrite starts_free_app. apply andb_true_intro. split; [reflexivity|].
    now apply starts_free_first.
Qed.

Lemma split_colon :
  Str.split ":" ("Action: " ++ verb) = ["Action"; " " ++ verb].
Proof.
  change ("Action: " ++ verb) with ("Action" ++ ":" ++ " " ++ verb).
  rewrite split_app by reflexivity. f_equal.
  apply split_none. now apply (contains_absent ":" _ ":").
Qed.

Lemma strip_verb : Str.strip (" " ++ verb) = verb.
Proof.
  unfold Str.strip. change (Str.lstrip_by Str.isspace (" " ++ verb))
    with (Str.lstrip_by Str.isspace verb).
  now rewrite lstrip_first, rstrip_last.
Qed.

Lemma action_of (r : string) :
  (try first := Str.item (Str.split "," ("Action: " ++ verb ++ String "," r)) 0 in
   try second := Str.item (Str.split ":" first) 1 in
   Ok (Str.strip second))
  = Ok verb.
Proof.
  rewrite split_comma. cbn [Str.item nth_error bind_result].
  rewrite split_colon. cbn [Str.item nth_error bind_result].
  now rewrite strip_verb.
Qed.

Lemma verb_free (sub r : string) (c : ascii) :
  Str.occurs ":" sub = true -> Str.occurs c sub = false ->
  Str.starts_free sub verb (String c r) = true.
Proof.
  intros Hsub Hc. apply starts_free_cut; [|assumption].
  now apply (contains_absent sub verb ":").
Qed.

End Parse.

Section ParseDescription.

Variables verb text : string.
Hypothesis verb_comma : Str.occurs "," verb = false.
Hypothesis verb_colon : Str.occurs ":" verb = false.
Hypothesis verb_first : Str.first_is Str.isspace verb = false.
Hypothesis verb_last : Str.last_is Str.isspace verb = false.
Hypothesis text_description : Str.contains "Description:" text = false.
Hypothesis text_id : Str.contains "ID:" text = false.
Hypothesis text_first : Str.first_is (Str.in_chars Str.quote) text = false.
Hypothesis text_last : Str.last_is (Str.in_chars Str.quote) text = false.











End ParseDescription.

Section ParseId.

Variable verb : string.
Variable n : Z.
Hypothesis verb_comma : Str.occurs "," verb = false.
Hypothesis verb_colon : Str.occurs ":" verb = false.
Hypothesis verb_first : Str.first_is Str.isspace verb = false.
Hypothesis verb_last : Str.last_is Str.isspace verb = false.










End ParseId.

(** ** Properties of the analyzer, the service and the handler *)




Lemma unknown_action (action : option string) :
  (forall v, In v known_actions -> action <> Some v) ->
  is_action action "create" = false /\ is_action action "read" = false
  /\ is_action action "update" = false /\ is_action action "delete" = false
  /\ is_action action "list" = false.
Proof.
  intros H. destruct action as [a|]; [|now repeat split].
  assert (E : forall v, In v known_actions -> String.eqb a v = false).
  { intros v Hv. apply String.eqb_neq. intros ->. now apply (H v Hv). }
  unfold is_action, known_actions in *.
  repeat split; apply E; simpl; tauto.
Qed.

Lemma handle_action_unknown (now u : Z) (a : Analysis.t) (s : Session) :
  (forall v, In v known_actions -> Analysis.action a <> Some v) ->
  TaskService.handle_action now u a s = (s, Ok "Invalid action").
Proof.
  intros H. unfold TaskService.handle_action.
  destruct (unknown_action _ H) as (-> & -> & -> & -> & ->).
  reflexivity.
Qed.




(** C7, as the code has it.  A completion that the analyzer parses to an
    action that is none of the five verbs is answered with [Invalid action]
    and leaves the table as it is; a completion on which the analyzer
    raises makes the handler raise the same exception, and this is what
    happens when the text before the first comma has no colon. *)
Theorem handle_message_unknown_action
    (chain_invoke : string -> string) (now u : Z) (text : string)
    (s : Session) :
  (forall a,
      TaskAnalyzer.analyze chain_invoke text = Ok a ->
      (forall v, In v known_actions -> Analysis.action a <> Some v) ->
      TaskBot.handle_message chain_invoke now u text s
      = (s, Ok "Invalid action"))
  /\ (forall e,
      TaskAnalyzer.analyze chain_invoke text = Raise e ->
      TaskBot.handle_message chain_invoke now u text s = (s, Raise e))
  /\ (Str.contains ":" (hd "" (Str.split "," (chain_invoke text))) = false ->
      TaskBot.handle_message chain_invoke now u text s
      = (s, Raise IndexError)).
Proof.
  unfold TaskBot.handle_message, bind, lift. split; [|split].
  - intros a -> H. now rewrite (handle_action_unknown now u a s H).
  - intros e ->. reflexivity.
  - intros H. unfold TaskAnalyzer.analyze, TaskAnalyzer.parse.
    destruct (Str.split "," (chain_invoke text)) as [|first l] eqn:E.
    + reflexivity.
    + cbn [hd] in H. cbn [Str.item nth_error bind_result].
      rewrite (split_none _ _ H). reflexivity.
Qed.

Lemma handle_message_unknown_action_witness :
  TaskBot.handle_message (fun _ => "Action: dance") 0 123 "dance with me" []
  = ([], Ok "Invalid action").
Proof.
  destruct (handle_message_unknown_action
              (fun _ => "Action: dance") 0 123 "dance with me" [])
    as (H & _ & _).
  apply (H (Analysis.mk (Some "dance") None None) eq_refl).
  intros v Hv. simpl in Hv.
  destruct Hv as [<-|[<-|[<-|[<-|[<-|[]]]]]]; discriminate.
Defined.

(** C7, as the claim has it, fails: a completion without a colon cannot be
    parsed into an action, and the handler raises [IndexError] instead of
    answering [Invalid action]. *)
Lemma handle_message_malformed_raises :
  TaskBot.handle_message (fun _ => "I cannot help with that") 0 123 "hello" []
  = ([], Raise IndexError).
Proof. reflexivity. Qed.

(** * Further properties *)

(** ** The repository: invariants of the table *)

(** X1. Every method keeps the primary key of the table: if the ids of the
    rows are pairwise different before a call of create, read, update,
    delete or list, they are so after it, whether the call returned or
    raised. *)
Theorem methods_keep_primary_key
    (now u k : Z) (c : TaskCreate.t) (d : TaskUpdate.t) (s : Session) :
  primary_key s ->
  primary_key (fst (TaskRepository.create now u c s))
  /\ primary_key (fst (TaskRepository.read u k s))
  /\ primary_key (fst (TaskRepository.update u k d s))
  /\ primary_key (fst (TaskRepository.delete u k s))
  /\ primary_key (fst (TaskRepository.list u s)).
Proof.
  intros Hpk. destruct c as [desc], d as [upd].
  repeat split.
  - exact (primary_key_run_call (Create now u desc) s Hpk).
  - exact (primary_key_run_call (Read u k) s Hpk).
  - exact (primary_key_run_call (Update u k upd) s Hpk).
  - exact (primary_key_run_call (Delete u k) s Hpk).
  - exact (primary_key_run_call (List u) s Hpk).
Qed.

Lemma methods_keep_primary_key_witness :
  primary_key
    (fst (TaskRepository.delete 123 1
            [Task.mk 1 123 "a" 0; Task.mk 2 7 "b" 1])).
Proof.
  destruct (methods_keep_primary_key 0 123 1 (TaskCreate.mk "")
              (TaskUpdate.mk None) [Task.mk 1 123 "a" 0; Task.mk 2 7 "b" 1])
    as (_ & _ & _ & H & _).
  - constructor; [simpl; intros [H|[]]; discriminate|].
    constructor; [simpl; tauto|constructor].
  - exact H.
Defined.

Section Ordering.






End Ordering.




(** ** The repository: how the methods compose *)

Section Composition.

Lemma updated_twice (t : Task.t) (d : option string) :
  updated (updated t d) d = updated t d.
Proof. unfold updated. destruct (truthy d); reflexivity. Qed.


Lemma delete_table (u k : Z) (s : Session) :
  primary_key s ->
  fst (TaskRepository.delete u k s)
  = filter (fun x => negb ((Task.id x =? k) && (Task.user_id x =? u))) s.
Proof.
  intros Hpk. rewrite delete_spec by assumption.
  destruct (selected u k s) as [t|] eqn:Hsel; cbn [fst].
  - pose proof (selected_Some _ _ _ _ Hsel) as (Hin & Hid & Hu).
    apply filter_ext_in. intros x Hx.
    destruct (Task.id x =? Task.id t) eqn:Hxt.
    + apply Z.eqb_eq in Hxt.
      assert (x = t) by now apply (id_unique s). subst x.
      now rewrite Hid, Hu, !Z.eqb_refl.
    + rewrite Hid in Hxt. now rewrite Hxt.
  - rewrite <- (filter_true s) at 1. apply filter_ext_in. intros x Hx.
    destruct (Task.id x =? k) eqn:Hxk; [|reflexivity].
    apply Z.eqb_eq in Hxk.
    pose proof (selected_None _ _ _ Hsel x Hx Hxk) as Hne.
    apply Z.eqb_neq in Hne. now rewrite Hne.
Qed.

Lemma filter_filter (p q : Task.t -> bool) (s : Session) :
  filter p (filter q s) = filter (fun x => p x && q x) s.
Proof.
  induction s as [|a s IH]; [reflexivity|]. simpl.
  destruct (q a); simpl; destruct (p a); simpl; now rewrite IH.
Qed.



End Composition.

(** X4. Update is idempotent: on a table with its primary key, repeating an
    update with the same arguments returns the same response and leaves the
    table as the first update left it. *)
Theorem update_twice (u k : Z) (d : TaskUpdate.t) (s : Session) :
  primary_key s ->
  TaskRepository.update u k d (fst (TaskRepository.update u k d s))
  = TaskRepository.update u k d s.
Proof.
  intros Hpk. rewrite (update_spec u k d s Hpk).
  destruct (selected u k s) as [t|] eqn:Hsel; cbn [fst]; cbv zeta.
  - pose proof (selected_Some _ _ _ _ Hsel) as (Hin & Hid & Hu).
    set (t' := updated t (TaskUpdate.description d)).
    set (s' := map (fun x => if Task.id x =? Task.id t' then t' else x) s).
    assert (Hin' : In t' s').
    { apply in_map_iff. exists t. split; [|assumption].
      unfold t'. now rewrite updated_id, Z.eqb_refl. }
    assert (Hpk' : primary_key s')
      by (unfold primary_key, s'; now rewrite map_id_replace).
    pose proof (selected_own s' t' Hpk' Hin') as Hsel'.
    unfold t' in Hsel' at 1 2.
    rewrite updated_user_id, updated_id, Hid, Hu in Hsel'.
    rewrite (update_spec u k d s' Hpk'), Hsel'. cbv zeta.
    assert (Ht' : updated t' (TaskUpdate.description d) = t')
      by apply updated_twice.
    rewrite Ht'. fold s'. now rewrite (replace_same s' t' Hpk' Hin').
  - now rewrite (update_spec u k d s Hpk), Hsel.
Qed.

Lemma update_twice_witness :
  TaskRepository.update 123 1 (TaskUpdate.mk (Some "new"))
    [Task.mk 1 123 "new" 0]
  = TaskRepository.update 123 1 (TaskUpdate.mk (Some "new"))
      [Task.mk 1 123 "old" 0].
Proof.
  apply (update_twice 123 1 (TaskUpdate.mk (Some "new"))
           [Task.mk 1 123 "old" 0]).
  constructor; [simpl; tauto|constructor].
Defined.






(** X8. Read agrees with list: on a table with its primary key, a user's
    read of an identifier returns a task exactly when this task, with this
    identifier, is in the user's list. *)
Theorem read_agrees_with_list
    (u k : Z) (s : Session) (r : TaskResponse.t) :
  primary_key s ->
  TaskRepository.read u k s = (s, Ok (Some r))
  <-> (exists l, TaskRepository.list u s = (s, Ok l)
                 /\ In r l /\ TaskResponse.id r = k).
Proof.
  intros Hpk. rewrite read_spec by assumption. split.
  - intros H. exists (map response_of (owned_by u s)).
    split; [reflexivity|].
    destruct (selected u k s) as [t|] eqn:Hsel; [|discriminate].
    injection H as <-. apply selected_Some in Hsel.
    destruct Hsel as (Hin & Hid & Hu). split; [|exact Hid].
    apply in_map. apply filter_In. split; [assumption|]. now apply Z.eqb_eq.
  - intros (l & Hl & Hr & Hid). rewrite list_spec in Hl.
    injection Hl as <-. apply in_map_iff in Hr. destruct Hr as (t & <- & Ht).
    apply filter_In in Ht. destruct Ht as [Ht Hu]. apply Z.eqb_eq in Hu.
    simpl in Hid. subst u k. now rewrite (selected_own s t Hpk Ht).
Qed.

Lemma read_agrees_with_list_witness :
  TaskRepository.read 123 3
    [Task.mk 1 123 "a" 0; Task.mk 3 123 "c" 2]
  = ([Task.mk 1 123 "a" 0; Task.mk 3 123 "c" 2],
     Ok (Some (TaskResponse.mk 3 "c" 2))).
Proof.
  apply (read_agrees_with_list 123 3
           [Task.mk 1 123 "a" 0; Task.mk 3 123 "c" 2]
           (TaskResponse.mk 3 "c" 2)).
  - constructor; [simpl; intros [H|[]]; discriminate|].
    constructor; [simpl; tauto|constructor].
  - eexists. split; [reflexivity|]. split; [right; left; reflexivity|reflexivity].
Defined.



(** ** The service: missing fields, exceptions and the list response *)

Section Service.


Lemma occurs_app (c : ascii) (a b : string) :
  Str.occurs c (a ++ b) = Str.occurs c a || Str.occurs c b.
Proof.
  induction a as [|y a IH]; [reflexivity|]. simpl.
  now rewrite IH, orb_assoc.
Qed.

Lemma split_join (c : ascii) (l : list string) :
  l <> [] -> (forall x, In x l -> Str.occurs c x = false) ->
  Str.split (String c "") (Str.join (String c "") l) = l.
Proof.
  induction l as [|a l IH]; intros Hne Hl; [congruence|].
  destruct l as [|b l].
  - cbn [Str.join]. apply split_none.
    apply (contains_absent _ _ c); [simpl; now rewrite Ascii.eqb_refl|].
    apply Hl. now left.
  - change (Str.join (String c "") (a :: b :: l))
      with (a ++ String c "" ++ Str.join (String c "") (b :: l)).
    rewrite split_app.
    + f_equal. apply IH; [discriminate|]. intros x Hx. apply Hl. now right.
    + apply starts_free_first. apply Hl. now left.
Qed.

Lemma render_row_one_line (t : Task.t) :
  Str.occurs newline (Task.description t) = false ->
  Str.occurs newline (render_row t) = false.
Proof.
  intros H. unfold render_row. rewrite !occurs_app, H.
  rewrite (all_occurs Str.sign_or_digit (Str.of_int (Task.id t)) newline
             (all_of_int _) eq_refl).
  reflexivity.
Qed.

End Service.

(** X10. A descriptor without the field its action needs: create without a
    description, and read, update or delete without an identifier, raise
    [KeyError] before the repository is called; the table is left as it
    is. *)
Theorem handle_action_missing_field
    (now u : Z) (a : Analysis.t) (s : Session) :
  (Analysis.action a = Some "create" /\ Analysis.description a = None)
  \/ ((Analysis.action a = Some "read" \/ Analysis.action a = Some "update"
       \/ Analysis.action a = Some "delete")
      /\ Analysis.id a = None) ->
  TaskService.handle_action now u a s = (s, Raise KeyError).
Proof.
  unfold TaskService.handle_action.
  intros [[-> ->]|[[->|[->| ->]] ->]]; reflexivity.
Qed.

Lemma handle_action_missing_field_witness :
  TaskService.handle_action 0 123 (Analysis.mk (Some "create") None (Some 4))
    [Task.mk 1 123 "a" 0]
  = ([Task.mk 1 123 "a" 0], Raise KeyError).
Proof.
  apply (handle_action_missing_field 0 123
           (Analysis.mk (Some "create") None (Some 4))).
  left. split; reflexivity.
Defined.

(** X11. An update descriptor without a description, or with the empty one,
    for a task the user owns: the service answers [Task updated: ...] with
    the stored description, and the table is left as it is. *)
Theorem handle_action_update_without_description
    (now u k : Z) (a : Analysis.t) (s : Session) (t : Task.t) :
  primary_key s -> In t s -> Task.id t = k -> Task.user_id t = u ->
  Analysis.action a = Some "update" -> Analysis.id a = Some k ->
  Analysis.description a = None \/ Analysis.description a = Some "" ->
  TaskService.handle_action now u a s
  = (s, Ok ("Task updated: " ++ Task.description t
            ++ " (ID: " ++ Str.of_int k ++ ")")).
Proof.
  intros Hpk Hin Hid Hu Hact Hk Hd. subst k u.
  unfold TaskService.handle_action. rewrite Hact, Hk.
  cbn [is_action String.eqb Ascii.eqb Bool.eqb].
  unfold bind, lift, Analysis.getitem.
  rewrite update_spec, (selected_own s t Hpk Hin) by assumption.
  cbv zeta. cbn [TaskUpdate.description].
  assert (E : updated t (Analysis.description a) = t)
    by (destruct Hd as [-> | ->]; reflexivity).
  rewrite E, (replace_same s t Hpk Hin). reflexivity.
Qed.

Lemma handle_action_update_without_description_witness :
  TaskService.handle_action 9 123 (Analysis.mk (Some "update") None (Some 1))
    [Task.mk 1 123 "Buy groceries" 0]
  = ([Task.mk 1 123 "Buy groceries" 0],
     Ok "Task updated: Buy groceries (ID: 1)").
Proof.
  apply (handle_action_update_without_description 9 123 1
           (Analysis.mk (Some "update") None (Some 1))
           [Task.mk 1 123 "Buy groceries" 0]
           (Task.mk 1 123 "Buy groceries" 0)).
  - constructor; [simpl; tauto|constructor].
  - left; reflexivity.
  - reflexivity.
  - reflexivity.
  - reflexivity.
  - reflexivity.
  - left; reflexivity.
Defined.



(** X13. One line per task: when the user has at least one task and no
    description of the user's tasks contains a newline, the list response
    split at the newlines gives back exactly the line
    [ID: <id>, Description: <description>] of each of the user's tasks, in
    table order. *)
Theorem list_response_lines (now u : Z) (a : Analysis.t) (s : Session) :
  Analysis.action a = Some "list" ->
  owned_by u s <> [] ->
  (forall t, In t (owned_by u s) ->
             Str.occurs newline (Task.description t) = false) ->
  exists response,
    TaskService.handle_action now u a s = (s, Ok response)
    /\ Str.split (String newline "") response
       = map render_row (owned_by u s).
Proof.
  intros Hact Hne Hdesc. unfold TaskService.handle_action. rewrite Hact.
  cbn [is_action String.eqb Ascii.eqb Bool.eqb].
  unfold bind. rewrite list_spec.
  destruct (owned_by u s) as [|t rows] eqn:E; [congruence|].
  eexists. split; [reflexivity|].
  rewrite map_map.
  change (fun x => TaskService.render_task (response_of x)) with render_row.
  apply split_join; [discriminate|].
  intros x Hx. apply in_map_iff in Hx. destruct Hx as (r & <- & Hr).
  apply render_row_one_line. now apply Hdesc.
Qed.

Lemma list_response_lines_witness :
  exists response,
    TaskService.handle_action 0 123 (Analysis.mk (Some "list") None None)
      [Task.mk 1 123 "a" 0; Task.mk 2 123 "b" 1]
    = ([Task.mk 1 123 "a" 0; Task.mk 2 123 "b" 1], Ok response)
    /\ Str.split (String newline "") response
       = ["ID: 1, Description: a"; "ID: 2, Description: b"].
Proof.
  apply (list_response_lines 0 123 (Analysis.mk (Some "list") None None)
           [Task.mk 1 123 "a" 0; Task.mk 2 123 "b" 1]).
  - reflexivity.
  - discriminate.
  - intros t [<-|[<-|[]]]; reflexivity.
Defined.

(** ** The analyzer: what it accepts, what it raises *)

Section Pieces.

Lemma split_from_nonempty (sep : string) (k : nat) (s : string) :
  Str.split_from sep k s <> [].
Proof.
  revert k. induction s as [|c s IH]; intros k; [discriminate|].
  destruct k as [|k]; cbn [Str.split_from]; [|apply IH].
  destruct (prefix sep (String c s)); [discriminate|].
  specialize (IH O). destruct (Str.split_from sep 0 s); [congruence|].
  discriminate.
Qed.

Lemma split_two (sep s : string) :
  Str.contains sep s = true -> sep <> EmptyString ->
  exists a b l, Str.split sep s = a :: b :: l.
Proof.
  intros H Hsep. unfold Str.split. induction s as [|c s IH].
  - destruct sep; [now elim Hsep|discriminate].
  - change (Str.contains sep (String c s))
      with (prefix sep (String c s) || Str.contains sep s) in H.
    cbn [Str.split_from].
    destruct (prefix sep (String c s)) eqn:Hp.
    + pose proof (split_from_nonempty sep
                    (Nat.pred (String.length sep)) s) as Hne.
      destruct (Str.split_from sep (Nat.pred (String.length sep)) s)
        as [|b l]; [now elim Hne|].
      now exists EmptyString, b, l.
    + simpl in H. destruct (IH H) as (a & b & l & ->).
      now exists (String c a), b, l.
Qed.

Lemma split_one (sep s : string) :
  sep <> EmptyString ->
  Str.item (Str.split sep s) 1 = Raise IndexError ->
  Str.contains sep s = false.
Proof.
  intros Hsep H. destruct (Str.contains sep s) eqn:E; [|reflexivity].
  destruct (split_two sep s E Hsep) as (a & b & l & Hs).
  rewrite Hs in H. discriminate.
Qed.

(** The first piece of a split starts with every segment in which no
    occurrence of the separator starts. *)
Lemma split_prefix (sep a r : string) :
  Str.starts_free sep a r = true ->
  exists p l, Str.split sep r = p :: l
              /\ Str.split sep (a ++ r) = (a ++ p) :: l.
Proof.
  unfold Str.split. induction a as [|c a IH]; intros H.
  - pose proof (split_from_nonempty sep O r) as Hne.
    destruct (Str.split_from sep 0 r) as [|p l] eqn:E; [now elim Hne|].
    exists p, l. split; [reflexivity|exact E].
  - cbn [Str.starts_free] in H. apply andb_prop in H. destruct H as [H1 H2].
    apply negb_true_iff in H1. destruct (IH H2) as (p & l & Hr & Har).
    exists p, l. split; [assumption|].
    change (Str.split_from sep 0 (String c a ++ r))
      with (if prefix sep (String c a ++ r)
            then EmptyString
                 :: Str.split_from sep (Nat.pred (String.length sep)) (a ++ r)
            else Str.cons_head c (Str.split_from sep O (a ++ r))).
    now rewrite H1, Har.
Qed.

(** Stripping keeps what lies before a character that is not stripped. *)
Lemma rstrip_keeps (p : ascii -> bool) (a y : string) (c : ascii) :
  p c = false ->
  exists z, Str.rstrip_by p (a ++ String c y) = a ++ String c z.
Proof.
  intros Hc. induction a as [|d a IH].
  - cbn [append]. rewrite rstrip_cons.
    destruct (Str.rstrip_by p y) as [|e r]; rewrite ?Hc; eexists; reflexivity.
  - destruct IH as [z Hz]. exists z. cbn [append]. rewrite rstrip_cons, Hz.
    destruct a; reflexivity.
Qed.

Lemma first_is_app (p : ascii -> bool) (a b : string) :
  a <> EmptyString -> Str.first_is p (a ++ b) = Str.first_is p a.
Proof. destruct a; [congruence|reflexivity]. Qed.

Lemma lstrip_trimmed (p : ascii -> bool) (s : string) :
  Str.first_is p (Str.lstrip_by p s) = false.
Proof.
  induction s as [|c s IH]; [reflexivity|]. simpl.
  destruct (p c) eqn:E; [assumption|]. simpl. exact E.
Qed.

Lemma rstrip_trimmed (p : ascii -> bool) (s : string) :
  Str.last_is p (Str.rstrip_by p s) = false.
Proof.
  induction s as [|c s IH]; [reflexivity|]. rewrite rstrip_cons.
  destruct (Str.rstrip_by p s) as [|d r].
  - destruct (p c) eqn:E; [reflexivity|]. simpl. exact E.
  - exact IH.
Qed.

Lemma rstrip_first (p : ascii -> bool) (s : string) :
  Str.first_is p s = false -> Str.first_is p (Str.rstrip_by p s) = false.
Proof.
  destruct s as [|c s]; [reflexivity|]. intros H. rewrite rstrip_cons.
  destruct (Str.rstrip_by p s); [|exact H].
  destruct (p c); [reflexivity|exact H].
Qed.

Lemma strip_by_trimmed (p : ascii -> bool) (s : string) :
  Str.first_is p (Str.rstrip_by p (Str.lstrip_by p s)) = false
  /\ Str.last_is p (Str.rstrip_by p (Str.lstrip_by p s)) = false.
Proof.
  split; [apply rstrip_first, lstrip_trimmed|apply rstrip_trimmed].
Qed.

(** [int] rejects digits followed by a comma. *)
Lemma digits_reject (b : bool) (u : uint) (z : string) :
  Str.digits b (NilEmpty.string_of_uint u ++ String "," z) = None.
Proof.
  revert b. induction u; intros b; simpl; try now rewrite IHu.
  now destruct b.
Qed.

Lemma of_int_nonempty (n : Z) : Str.of_int n <> EmptyString.
Proof.
  unfold Str.of_int, NilZero.string_of_int.
  destruct (Z.to_int n) as [d|d]; [|discriminate].
  destruct d; discriminate.
Qed.

Lemma int_rejects_comma (n : Z) (y : string) :
  Str.int (Str.of_int n ++ String "," y) = Raise ValueError.
Proof.
  destruct (all_first_last Str.sign_or_digit Str.isspace (Str.of_int n)
              isdigit_not_space (all_of_int n)) as [Hf _].
  unfold Str.int, Str.strip.
  rewrite lstrip_first
    by (rewrite first_is_app; [exact Hf|apply of_int_nonempty]).
  destruct (rstrip_keeps Str.isspace (Str.of_int n) y "," eq_refl) as [z ->].
  pose proof (to_int_nonnil n) as Hnil.
  unfold Str.of_int, NilZero.string_of_int in *.
  destruct (Z.to_int n) as [d|d].
  - assert (E : NilZero.string_of_uint d = NilEmpty.string_of_uint d)
      by (destruct d; [congruence|reflexivity..]).
    rewrite E. pose proof (digits_reject false d z) as Hd.
    destruct d; [congruence|simpl in *; now rewrite Hd..].
  - assert (E : NilZero.string_of_uint d = NilEmpty.string_of_uint d)
      by (destruct d; [congruence|reflexivity..]).
    rewrite E. cbn [append]. now rewrite digits_reject.
Qed.

End Pieces.

Section ParseMore.

Variable verb : string.
Hypothesis verb_comma : Str.occurs "," verb = false.
Hypothesis verb_colon : Str.occurs ":" verb = false.

Lemma action_no_description :
  Str.contains "Description:" ("Action: " ++ verb) = false.
Proof.
  rewrite contains_app_skip by reflexivity.
  now apply (contains_absent _ _ ":").
Qed.

Lemma action_no_id : Str.contains "ID:" ("Action: " ++ verb) = false.
Proof.
  rewrite contains_app_skip by reflexivity.
  now apply (contains_absent _ _ ":").
Qed.

Lemma action_no_comma : Str.contains "," ("Action: " ++ verb) = false.
Proof.
  apply (contains_absent _ _ ","); [reflexivity|].
  now rewrite occurs_app, verb_comma.
Qed.

Lemma id_prefix_free (r : string) :
  Str.starts_free "ID:" ("Action: " ++ verb ++ ", ") ("ID:" ++ r) = true.
Proof.
  rewrite !starts_free_app.
  apply andb_true_intro; split; [reflexivity|].
  apply andb_true_intro; split; [|reflexivity].
  now apply (verb_free verb verb_colon).
Qed.

Lemma id_piece (n : Z) (text : string) :
  exists y l,
    Str.split "ID:" (completion_id_description verb n text)
    = ("Action: " ++ verb ++ ", ")
      :: (" " ++ Str.of_int n ++ String "," y) :: l.
Proof.
  unfold completion_id_description.
  assert (E : "Action: " ++ verb ++ ", ID: " ++ Str.of_int n
              ++ ", Description: " ++ Str.quote ++ text ++ Str.quote
              = ("Action: " ++ verb ++ ", ") ++ "ID:"
                ++ (" " ++ Str.of_int n ++ ", Description: " ++ Str.quote)
                ++ text ++ Str.quote)
    by now rewrite !append_assoc.
  rewrite E, (split_app _ _ _ _ (id_prefix_free _)).
  destruct (split_prefix "ID:"
              (" " ++ Str.of_int n ++ ", Description: " ++ Str.quote)
              (text ++ Str.quote)) as (p & l & _ & ->).
  - apply starts_free_first. rewrite !occurs_app.
    rewrite (all_occurs Str.sign_or_digit (Str.of_int n) "I"
               (all_of_int n) eq_refl).
    reflexivity.
  - exists (" Description: " ++ Str.quote ++ p), l.
    now rewrite !append_assoc.
Qed.

Lemma strip_id_piece (n : Z) (y : string) :
  exists z, Str.strip (" " ++ Str.of_int n ++ String "," y)
            = Str.of_int n ++ String "," z.
Proof.
  destruct (all_first_last Str.sign_or_digit Str.isspace (Str.of_int n)
              isdigit_not_space (all_of_int n)) as [Hf _].
  unfold Str.strip.
  change (Str.lstrip_by Str.isspace (" " ++ Str.of_int n ++ String "," y))
    with (Str.lstrip_by Str.isspace (Str.of_int n ++ String "," y)).
  rewrite lstrip_first
    by (rewrite first_is_app; [exact Hf|apply of_int_nonempty]).
  apply rstrip_keeps. reflexivity.
Qed.

End ParseMore.

Lemma int_raises (s : string) (e : exn) :
  Str.int s = Raise e -> e = ValueError.
Proof.
  unfold Str.int.
  destruct (Str.strip s) as [|c r]; cbn.
  - intros H. now injection H.
  - destruct c as [[|] [|] [|] [|] [|] [|] [|] [|]];
      match goal with
      | |- context [Str.digits false ?b] => destruct (Str.digits false b)
      end; intros H; (discriminate || now injection H).
Qed.

(** X14. A completion [Action: <verb>] alone, the verb without [,] and [:]
    and without whitespace at its ends, is analyzed to that verb, with
    neither description nor identifier. *)
Theorem parse_action_only (verb : string) :
  Str.occurs "," verb = false -> Str.occurs ":" verb = false ->
  Str.first_is Str.isspace verb = false ->
  Str.last_is Str.isspace verb = false ->
  TaskAnalyzer.parse (completion_action verb)
  = Ok (Analysis.mk (Some verb) None None).
Proof.
  intros Hcomma Hcolon Hfirst Hlast.
  unfold TaskAnalyzer.parse, completion_action.
  rewrite (split_none _ _ (action_no_comma verb Hcomma)).
  cbn [Str.item nth_error bind_result].
  rewrite (split_colon verb Hcolon).
  cbn [Str.item nth_error bind_result].
  rewrite (strip_verb verb Hfirst Hlast).
  now rewrite (action_no_description verb Hcolon), (action_no_id verb Hcolon).
Qed.

Lemma parse_action_only_witness :
  TaskAnalyzer.parse "Action: list" = Ok (Analysis.mk (Some "list") None None).
Proof.
  exact (parse_action_only "list" eq_refl eq_refl eq_refl eq_refl).
Defined.

(** X15. What the analyzer can raise: nothing but [IndexError] and
    [ValueError]; [IndexError] exactly when the text before the first comma
    has no colon; [ValueError] only when the completion contains [ID:]. *)
Theorem parse_raises_only (result : string) :
  (forall e, TaskAnalyzer.parse result = Raise e ->
             e = IndexError \/ e = ValueError)
  /\ (TaskAnalyzer.parse result = Raise IndexError
      <-> Str.contains ":" (hd "" (Str.split "," result)) = false)
  /\ (TaskAnalyzer.parse result = Raise ValueError ->
      Str.contains "ID:" result = true).
Proof.
  unfold TaskAnalyzer.parse.
  pose proof (split_from_nonempty "," O result) as Hne.
  fold (Str.split "," result) in Hne.
  destruct (Str.split "," result) as [|first l]; [now elim Hne|].
  cbn [hd Str.item nth_error bind_result].
  destruct (Str.contains ":" first) eqn:Hcolon.
  - destruct (split_two ":" first Hcolon) as (a & b & l' & ->);
      [discriminate|].
    cbn [Str.item nth_error bind_result].
    assert (Hd : exists d,
      (if Str.contains "Description:" result
       then try d := Str.item (Str.split "Description:" result) 1 in
            Ok (Some (Str.strip_chars Str.quote (Str.strip d)))
       else Ok None) = Ok d).
    { destruct (Str.contains "Description:" result) eqn:E;
        [|now exists None].
      destruct (split_two _ _ E) as (x & y & l'' & ->); [discriminate|].
      eexists. reflexivity. }
    destruct Hd as [d ->]. cbn [bind_result].
    destruct (Str.contains "ID:" result) eqn:Hid.
    + destruct (split_two _ _ Hid) as (x & y & l'' & ->); [discriminate|].
      cbn [Str.item nth_error bind_result].
      destruct (Str.int (Str.strip y)) as [n|e'] eqn:Hint; cbn [bind_result].
      * split; [intros e H; discriminate|].
        split; [split; intros H; discriminate|intros H; discriminate].
      * pose proof (int_raises _ _ Hint) as ->.
        split; [intros e H; injection H as <-; now right|].
        split; [split; intros H; discriminate|reflexivity].
    + cbn [bind_result]. split; [intros e H; discriminate|].
      split; [split; intros H; discriminate|intros H; discriminate].
  - rewrite (split_none _ _ Hcolon). cbn [Str.item nth_error bind_result].
    split; [intros e H; injection H as <-; now left|].
    split; [split; reflexivity|intros H; discriminate].
Qed.

Lemma id_description_rejected (verb : string) (n : Z) (text : string) :
  Str.occurs "," verb = false -> Str.occurs ":" verb = false ->
  Str.first_is Str.isspace verb = false ->
  Str.last_is Str.isspace verb = false ->
  TaskAnalyzer.parse (completion_id_description verb n text)
  = Raise ValueError.
Proof.
  intros Hcomma Hcolon Hfirst Hlast. unfold TaskAnalyzer.parse.
  assert (Hsplit : exists l,
    Str.split "," (completion_id_description verb n text)
    = ("Action: " ++ verb) :: l).
  { eexists. unfold completion_id_description.
    change (", ID: " ++ Str.of_int n ++ ", Description: " ++ Str.quote
            ++ text ++ Str.quote)
      with (String "," (" ID: " ++ Str.of_int n ++ ", Description: "
                        ++ Str.quote ++ text ++ Str.quote)).
    now apply split_comma. }
  destruct Hsplit as [l ->]. cbn [Str.item nth_error bind_result].
  rewrite (split_colon verb Hcolon). cbn [Str.item nth_error bind_result].
  assert (Hd : exists d,
    (if Str.contains "Description:" (completion_id_description verb n text)
     then try d := Str.item
                     (Str.split "Description:"
                        (completion_id_description verb n text)) 1 in
          Ok (Some (Str.strip_chars Str.quote (Str.strip d)))
     else Ok None) = Ok d).
  { destruct (Str.contains "Description:" _) eqn:E; [|now exists None].
    destruct (split_two _ _ E) as (x & y & l'' & ->); [discriminate|].
    eexists. reflexivity. }
  destruct Hd as [d ->]. cbn [bind_result].
  destruct (id_piece verb Hcolon n text) as (y & l' & Hid).
  assert (Hc : Str.contains "ID:" (completion_id_description verb n text) = true).
  { destruct (Str.contains "ID:" _) eqn:E; [reflexivity|].
    rewrite (split_none _ _ E) in Hid. discriminate. }
  rewrite Hc, Hid. cbn [Str.item nth_error bind_result].
  destruct (strip_id_piece n y) as [z ->].
  now rewrite int_rejects_comma.
Qed.

(** X16. What the analyzer returns is trimmed: the action neither starts
    nor ends with whitespace, a description neither starts nor ends with a
    double quote; the descriptor has a description exactly when the
    completion contains [Description:], and an identifier exactly when it
    contains [ID:]. *)
Theorem parse_trimmed (result : string) (a : Analysis.t) :
  TaskAnalyzer.parse result = Ok a ->
  (exists v, Analysis.action a = Some v
             /\ Str.first_is Str.isspace v = false
             /\ Str.last_is Str.isspace v = false)
  /\ (forall d, Analysis.description a = Some d ->
                Str.first_is (Str.in_chars Str.quote) d = false
                /\ Str.last_is (Str.in_chars Str.quote) d = false)
  /\ (Analysis.description a <> None
      <-> Str.contains "Description:" result = true)
  /\ (Analysis.id a <> None <-> Str.contains "ID:" result = true).
Proof.
  unfold TaskAnalyzer.parse.
  destruct (Str.item (Str.split "," result) 0) as [first|];
    cbn [bind_result]; [|discriminate].
  destruct (Str.item (Str.split ":" first) 1) as [second|];
    cbn [bind_result]; [|discriminate].
  destruct (Str.contains "Description:" result).
  - destruct (Str.item (Str.split "Description:" result) 1) as [d|];
      cbn [bind_result]; [|discriminate].
    destruct (Str.contains "ID:" result).
    + destruct (Str.item (Str.split "ID:" result) 1) as [i|];
        cbn [bind_result]; [|discriminate].
      destruct (Str.int (Str.strip i)) as [n|]; cbn [bind_result];
        [|discriminate].
      intros H. injection H as <-. cbn.
      split; [eexists; split; [reflexivity|apply strip_by_trimmed]|].
      split; [intros ? H; injection H as <-; apply strip_by_trimmed|].
      split; split; intros; (reflexivity || discriminate).
    + intros H. injection H as <-. cbn.
      split; [eexists; split; [reflexivity|apply strip_by_trimmed]|].
      split; [intros ? H; injection H as <-; apply strip_by_trimmed|].
      split; split; intros; try (reflexivity || discriminate || congruence).
  - destruct (Str.contains "ID:" result).
    + destruct (Str.item (Str.split "ID:" result) 1) as [i|];
        cbn [bind_result]; [|discriminate].
      destruct (Str.int (Str.strip i)) as [n|]; cbn [bind_result];
        [|discriminate].
      intros H. injection H as <-. cbn.
      split; [eexists; split; [reflexivity|apply strip_by_trimmed]|].
      split; [discriminate|].
      split; split; intros; try (reflexivity || discriminate || congruence).
    + intros H. injection H as <-. cbn.
      split; [eexists; split; [reflexivity|apply strip_by_trimmed]|].
      split; [discriminate|].
      split; split; intros; try (reflexivity || discriminate || congruence).
Qed.

Lemma parse_trimmed_witness :
  exists v, Some "create" = Some v
            /\ Str.first_is Str.isspace v = false
            /\ Str.last_is Str.isspace v = false.
Proof.
  destruct (parse_trimmed
              ("Action:   create  , Description: " ++ Str.quote ++ "x"
               ++ Str.quote)
              (Analysis.mk (Some "create") (Some "x") None) eq_refl)
    as (H & _).
  exact H.
Defined.

(** ** The message handler, from the completion to the answer *)




(** X18. The shape of the analyzer's own update response (line 99): for a
    verb without [,] and [:] and without whitespace at its ends, a
    completion [Action: <verb>, ID: <int>, Description: "<text>"] makes the
    analyzer raise [ValueError], whatever the integer and the text, because
    all that follows [ID:] is handed to [int]; the handler raises with it
    and the table is left as it is. *)
Theorem id_then_description_raises
    (verb : string) (n : Z) (description : string) :
  Str.occurs "," verb = false -> Str.occurs ":" verb = false ->
  Str.first_is Str.isspace verb = false ->
  Str.last_is Str.isspace verb = false ->
  TaskAnalyzer.parse (completion_id_description verb n description)
  = Raise ValueError
  /\ (forall chain_invoke now u text s,
        chain_invoke text = completion_id_description verb n description ->
        TaskBot.handle_message chain_invoke now u text s
        = (s, Raise ValueError)).
Proof.
  intros Hcomma Hcolon Hfirst Hlast.
  pose proof (id_description_rejected verb n description
                Hcomma Hcolon Hfirst Hlast) as H.
  split; [exact H|].
  intros chain_invoke now u text s Hc.
  unfold TaskBot.handle_message, TaskAnalyzer.analyze, bind, lift.
  now rewrite Hc, H.
Qed.

Lemma id_then_description_raises_witness :
  TaskBot.handle_message
    (fun _ => completion_id_description "update" 1 "Buy groceries and milk")
    0 123 "add milk" [Task.mk 1 123 "Buy groceries" 0]
  = ([Task.mk 1 123 "Buy groceries" 0], Raise ValueError).
Proof.
  destruct (id_then_description_raises "update" 1 "Buy groceries and milk"
              eq_refl eq_refl eq_refl eq_refl) as (_ & H).
  now apply H.
Defined.



(** ** What a user's message cannot do *)

Section Others.

Variable u : Z.

Lemma others_create (now : Z) (c : TaskCreate.t) (s : Session) :
  others u (fst (TaskRepository.create now u c s)) = others u s.
Proof.
  rewrite create_spec. cbn [fst]. unfold others. rewrite filter_app. simpl.
  now rewrite Z.eqb_refl, app_nil_r.
Qed.

Lemma others_update (k : Z) (d : TaskUpdate.t) (s : Session) :
  primary_key s ->
  others u (fst (TaskRepository.update u k d s)) = others u s.
Proof.
  intros Hpk. rewrite update_spec by assumption.
  destruct (selected u k s) as [t|] eqn:Hsel; cbn [fst]; [|reflexivity].
  pose proof (selected_Some _ _ _ _ Hsel) as (Hin & Hid & Hu).
  cbv zeta. set (t' := updated t (TaskUpdate.description d)).
  assert (Hu' : Task.user_id t' = u)
    by (unfold t'; now rewrite updated_user_id).
  assert (Hsame : forall x, In x s -> Task.id x = Task.id t' -> x = t).
  { intros x Hx Hxt. unfold t' in Hxt. rewrite updated_id in Hxt.
    now apply (id_unique s). }
  unfold others.
  assert (H : forall l, (forall x, In x l -> In x s) ->
    filter (fun x => negb (Task.user_id x =? u))
      (map (fun x => if Task.id x =? Task.id t' then t' else x) l)
    = filter (fun x => negb (Task.user_id x =? u)) l).
  { induction l as [|a l IH]; intros Hl; [reflexivity|]. simpl.
    assert (Hrest : forall x, In x l -> In x s)
      by (intros x Hx; apply Hl; now right).
    destruct (Task.id a =? Task.id t') eqn:E.
    - apply Z.eqb_eq in E.
      assert (a = t) by (apply Hsame; [apply Hl; now left|assumption]).
      subst a. rewrite Hu', Hu, Z.eqb_refl. simpl. now apply IH.
    - rewrite (IH Hrest). reflexivity. }
  apply H. auto.
Qed.

Lemma others_delete (k : Z) (s : Session) :
  primary_key s ->
  others u (fst (TaskRepository.delete u k s)) = others u s.
Proof.
  intros Hpk. rewrite (delete_table u k s Hpk). unfold others.
  rewrite filter_filter. apply filter_ext. intros x.
  destruct (Task.user_id x =? u); [reflexivity|].
  now rewrite andb_false_r.
Qed.

Lemma others_handle_action (now : Z) (a : Analysis.t) (s : Session) :
  primary_key s ->
  others u (fst (TaskService.handle_action now u a s)) = others u s.
Proof.
  intros Hpk. unfold TaskService.handle_action.
  destruct (is_action (Analysis.action a) "create").
  { unfold bind, lift, Analysis.getitem.
    destruct (Analysis.description a) as [d|]; [|reflexivity].
    pose proof (others_create now (TaskCreate.mk d) s) as H.
    destruct (TaskRepository.create now u (TaskCreate.mk d) s) as [s' [r|e]];
      exact H. }
  destruct (is_action (Analysis.action a) "read").
  { unfold bind, lift, Analysis.getitem.
    destruct (Analysis.id a) as [k|]; [|reflexivity].
    rewrite read_spec by assumption.
    destruct (selected u k s); reflexivity. }
  destruct (is_action (Analysis.action a) "update").
  { unfold bind, lift, Analysis.getitem.
    destruct (Analysis.id a) as [k|]; [|reflexivity].
    pose proof (others_update k (TaskUpdate.mk (Analysis.description a)) s Hpk)
      as H.
    destruct (TaskRepository.update u k _ s) as [s' [[r|]|e]]; exact H. }
  destruct (is_action (Analysis.action a) "delete").
  { unfold bind, lift, Analysis.getitem.
    destruct (Analysis.id a) as [k|]; [|reflexivity].
    pose proof (others_delete k s Hpk) as H.
    destruct (TaskRepository.delete u k s) as [s' [r|e]]; exact H. }
  destruct (is_action (Analysis.action a) "list").
  { unfold bind. rewrite list_spec.
    destruct (map response_of (owned_by u s)); reflexivity. }
  reflexivity.
Qed.

End Others.

(** X20. A user's message touches no row of another user: on a table with
    its primary key, whatever the completion and whatever the handler does
    with it (answer or raise), the rows owned by the other users are after
    the message what they were before it, in the same order. *)
Theorem message_keeps_other_users_rows
    (chain_invoke : string -> string) (now u : Z) (text : string)
    (s : Session) :
  primary_key s ->
  others u (fst (TaskBot.handle_message chain_invoke now u text s))
  = others u s.
Proof.
  intros Hpk. unfold TaskBot.handle_message, bind, lift.
  destruct (TaskAnalyzer.analyze chain_invoke text) as [a|e]; [|reflexivity].
  pose proof (others_handle_action u now a s Hpk) as H.
  destruct (TaskService.handle_action now u a s) as [s' [r|e]]; exact H.
Qed.

Lemma message_keeps_other_users_rows_witness :
  others 123
    (fst (TaskBot.handle_message (fun _ => "Action: delete, ID: 2") 0 123
            "delete number two"
            [Task.mk 1 123 "a" 0; Task.mk 2 7 "b" 1]))
  = [Task.mk 2 7 "b" 1].
Proof.
  apply (message_keeps_other_users_rows
           (fun _ => "Action: delete, ID: 2") 0 123 "delete number two"
           [Task.mk 1 123 "a" 0; Task.mk 2 7 "b" 1]).
  constructor; [simpl; intros [H|[]]; discriminate|].
  constructor; [simpl; tauto|constructor].
Defined.
